(** * Reservoir simulation abbreviations

    A shallow embedding of
    [webviz_subsurface/_abbreviations/reservoir_simulation.py]:
    the unit reformatter, the vector base extractor, the vector
    description builder and the historical vector guesser, together
    with the properties the specification states about them.

    Python [str] values are modelled as [string]; the functions below
    only ever compare characters with [":"], ["_"], ["H"], ["F"], ["G"]
    and ["W"], so the character set plays no role.  The two JSON
    documents loaded at import time are dictionaries of dictionaries
    of strings and stay abstract: they are the variables of a section. *)

From Equations Require Import Equations.
From stdpp Require Import gmap strings list fin_maps.
From Stdlib Require Import Ascii String.

Local Open Scope string_scope.

(* stdpp blocks the unfolding of string concatenation; the proofs below
   compute with it. *)
#[local] Arguments String.append !_ _ : simpl nomatch.

(** ** Exceptions *)

Inductive exn : Type :=
| KeyError (key : string)
| IndexError
| ValueError.

Inductive result (A : Type) : Type :=
| Ok (a : A)
| Raise (e : exn).
Arguments Ok {A} a.
Arguments Raise {A} e.

(** Sequencing: an exception raised by the first statement skips the rest. *)
#[global] Instance result_bind : MBind result := λ A B k r,
  match r with
  | Ok a => k a
  | Raise e => Raise e
  end.

(** [d[key]] on a dictionary. *)
Definition getitem {V : Type} (d : gmap string V) (key : string) : result V :=
  match d !! key with
  | Some v => Ok v
  | None => Raise (KeyError key)
  end.

(** [l[i]] on a list. *)
Definition index {A : Type} (l : list A) (i : nat) : result A :=
  match l !! i with
  | Some x => Ok x
  | None => Raise IndexError
  end.

(** ** The string methods the module calls *)

Module PyStr.

(** [c in s] for a one-character [c]. *)
Fixpoint contains (c : ascii) (s : string) : bool :=
  match s with
  | EmptyString => false
  | String a s' => if Ascii.eqb a c then true else contains c s'
  end.

(** [s.find(c)] for a one-character [c]; [None] stands for [-1]. *)
Fixpoint find (c : ascii) (s : string) : option nat :=
  match s with
  | EmptyString => None
  | String a s' => if Ascii.eqb a c then Some 0 else S <$> find c s'
  end.

(** [s[:n]] for [n >= 0]. *)
Fixpoint take (n : nat) (s : string) : string :=
  match n, s with
  | S n', String a s' => String a (take n' s')
  | _, _ => EmptyString
  end.

(** [s[n:]] for [n >= 0]. *)
Fixpoint drop (n : nat) (s : string) : string :=
  match n, s with
  | S n', String _ s' => drop n' s'
  | _, _ => s
  end.

(** [s[:-1]]. *)
Fixpoint drop_last (s : string) : string :=
  match s with
  | EmptyString => EmptyString
  | String a EmptyString => EmptyString
  | String a s' => String a (drop_last s')
  end.

(** [s.split(sep, 1)] for a one-character [sep]. *)
Definition split1 (sep : ascii) (s : string) : list string :=
  match find sep s with
  | Some i => [take i s; drop (S i) s]
  | None => [s]
  end.

(** [sep.join(parts)]. *)
Fixpoint join (sep : string) (parts : list string) : string :=
  match parts with
  | [] => EmptyString
  | [p] => p
  | p :: ps => p ++ sep ++ join sep ps
  end.

(** [s.rstrip(c)] for a one-character [c]. *)
Fixpoint rstrip (c : ascii) (s : string) : string :=
  match s with
  | EmptyString => EmptyString
  | String a s' =>
      match rstrip c s' with
      | EmptyString => if Ascii.eqb a c then EmptyString else String a EmptyString
      | r => String a r
      end
  end.

(** [s.startswith(c)] for a one-character [c]. *)
Definition startswith (c : ascii) (s : string) : bool :=
  match s with
  | String a _ => Ascii.eqb a c
  | EmptyString => false
  end.

(** [s.startswith((c1, ..., cn))] for a tuple of one-character strings. *)
Definition startswith_any (cs : list ascii) (s : string) : bool :=
  existsb (λ c, startswith c s) cs.

(** [s.endswith(c)] for a one-character [c]. *)
Fixpoint endswith (c : ascii) (s : string) : bool :=
  match s with
  | EmptyString => false
  | String a EmptyString => Ascii.eqb a c
  | String _ s' => endswith c s'
  end.

(** [s.replace(old, new)] for one-character [old] and [new]. *)
Fixpoint replace (old new : ascii) (s : string) : string :=
  match s with
  | EmptyString => EmptyString
  | String a s' => String (if Ascii.eqb a old then new else a) (replace old new s')
  end.

End PyStr.

(** ** The module *)

Section reservoir_simulation.

(** [reservoir_simulation_vectors.json]: vector name to metadata. *)
Variable SIMULATION_VECTOR_TERMINOLOGY : gmap string (gmap string string).

(** [reservoir_simulation_unit_terminology.json]: unit set to unit table. *)
Variable RESERVOIR_SIMULATION_UNIT_TERMINOLOGY : gmap string (gmap string string).

Definition simulation_unit_reformat (ecl_unit unit_set : string) : result string :=
  units ← getitem RESERVOIR_SIMULATION_UNIT_TERMINOLOGY unit_set;
  Ok (default ecl_unit (units !! ecl_unit)).

Definition simulation_vector_base (vector : string) : result string :=
  before_colon ← index (PyStr.split1 ":" vector) 0;
  index (PyStr.split1 "_" before_colon) 0.

(** Line 40: [[vector_name, node] = ...]. *)
Definition split_node (vector : string) : result (string * option string) :=
  if PyStr.contains ":" vector then
    match PyStr.split1 ":" vector with
    | [vector_name; node] => Ok (vector_name, Some node)
    | _ => Raise ValueError
    end
  else Ok (vector, None).

(** Lines 41 to 55: the region vector special form; the result is the
    pair of [vector_name] and [fip] after the [if]. *)
Definition region_form (vector_name : string) : result (string * option string) :=
  if Nat.eqb (String.length vector_name) 8 then
    let vector_base_name := PyStr.rstrip "_" (PyStr.take 5 vector_name) in
    let fip := PyStr.drop 5 vector_name in
    match
      (metadata ← getitem SIMULATION_VECTOR_TERMINOLOGY vector_base_name;
       type ← getitem metadata "type";
       Ok (String.eqb type "region"))
    with
    | Ok true => Ok (vector_base_name, Some fip)
    | Ok false => Ok (vector_name, None)
    | Raise (KeyError _) => Ok (vector_name, None)
    | Raise e => Raise e
    end
  else Ok (vector_name, None).

Definition missing_description_warning (vector_name : string) : string :=
  "Could not find description for vector " ++ vector_name ++
  ". Consider adding it in the GitHub repo https://github.com/equinor/webviz-subsurface?".

(** Lines 56 to 75; the second component lists the warnings issued. *)
Definition describe (vector_name : string) (fip node : option string)
  : result (string * list string) :=
  match SIMULATION_VECTOR_TERMINOLOGY !! vector_name with
  | Some metadata =>
      description ← getitem metadata "description";
      match node with
      | Some node =>
          match fip with
          | Some fip =>
              type ← getitem metadata "type";
              Ok (description ++ ", " ++ PyStr.replace "_" " " type
                    ++ " " ++ fip ++ " " ++ node, [])
          | None =>
              type ← getitem metadata "type";
              Ok (description ++ ", " ++ PyStr.replace "_" " " type
                    ++ " " ++ node, [])
          end
      | None => Ok (description, [])
      end
  | None => Ok (vector_name, [missing_description_warning vector_name])
  end.

Definition simulation_vector_description (vector : string)
  : result (string * list string) :=
  '(vector_name, node) ← split_node vector;
  '(vector_name, fip) ← region_form vector_name;
  describe vector_name fip node.

End reservoir_simulation.

(** [parts[0] += suffix]. *)
Definition iadd_first (parts : list string) (suffix : string) : result (list string) :=
  first ← index parts 0;
  Ok (<[0 := first ++ suffix]> parts).

Equations? historical_vector (vector : string)
    (smry_meta : option (gmap string bool)) (return_historical : bool)
  : result (option string) by wf (Nat.b2n return_historical) lt :=
  historical_vector vector smry_meta true :=
    let smry_meta : option (gmap string bool) := None in
    let parts := PyStr.split1 ":" vector in
    parts ← iadd_first parts "H";
    let hist_vec := PyStr.join ":" parts in
    guess ← historical_vector hist_vec smry_meta false;
    Ok (match guess with None => None | Some _ => Some hist_vec end);
  historical_vector vector smry_meta false :=
    let smry_meta : option (gmap string bool) := None in
    let parts := PyStr.split1 ":" vector in
    match smry_meta with
    | None =>
        first ← index parts 0;
        if PyStr.endswith "H" first && PyStr.startswith_any ["F"; "G"; "W"]%char first then
          let parts := <[0 := PyStr.drop_last first]> parts in
          Ok (Some (PyStr.join ":" parts))
        else Ok None
    | Some is_historical =>
        is_hist ← match getitem is_historical vector with
                  | Ok flag => Ok flag
                  | Raise (KeyError _) => Ok false
                  | Raise e => Raise e
                  end;
        if is_hist : bool then
          first ← index parts 0;
          Ok (Some (PyStr.drop_last first))
        else Ok None
    end.
Proof. simpl. lia. Qed.

(** ** Vocabulary of the specification *)

Section vocabulary.
Import PyStr.

(** [only c s]: every character of [s] is [c]. *)
Fixpoint only (c : ascii) (s : string) : bool :=
  match s with
  | EmptyString => true
  | String a s' => Ascii.eqb a c && only c s'
  end.

(** [p] is the part of [s] before the first [c] (all of [s] if there is none). *)
Definition before_first (c : ascii) (s p : string) : Prop :=
  contains c p = false ∧ (s = p ∨ ∃ rest, s = p ++ String c rest).

(** The naming heuristic of line 110 on the part before the colon. *)
Definition looks_historical (base : string) : bool :=
  endswith "H" base && startswith_any ["F"; "G"; "W"]%char base.

(** Reverse mode with a table as the specification words it: look up the
    exact vector; when it is flagged, return the base without its last
    character, followed by the node; otherwise return nothing. *)
Definition historical_vector_table_spec
    (vector : string) (is_historical : gmap string bool) : option string :=
  match is_historical !! vector with
  | Some true =>
      match split1 ":" vector with
      | base :: tail => Some (join ":" (drop_last base :: tail))
      | [] => None
      end
  | _ => None
  end.

Variable TERMINOLOGY : gmap string (gmap string string).

(** [name] is an entry of the table whose type is exactly ["region"]. *)
Definition region_entry (name : string) : Prop :=
  ∃ metadata, TERMINOLOGY !! name = Some metadata ∧
              metadata !! "type" = Some "region".

(** Every entry of the table has its two fields. *)
Definition well_formed : Prop :=
  map_Forall (λ _ (metadata : gmap string string),
    is_Some (metadata !! "description") ∧ is_Some (metadata !! "type"))
    TERMINOLOGY.

End vocabulary.

(** ** Small tables to run the functions on *)

Definition metric_only : gmap string (gmap string string) :=
  {[ "METRIC" := {[ "SM3/DAY" := "Sm3/d" ]} ]}.

Definition entry (description type : string) : gmap string string :=
  {[ "description" := description; "type" := type ]}.

Definition example_terminology : gmap string (gmap string string) :=
  {[ "ROIP" := entry "Oil In Place" "region";
     "WOPR" := entry "Oil Production Rate" "well";
     "SOFR" := entry "Segment Oil Flow Rate" "well_segment" ]}.

(** A table in which an eight-character key is also the special form of
    a region vector. *)
Definition shadowing_terminology : gmap string (gmap string string) :=
  {[ "ROIPL" := entry "Liquid Phase Oil In Place" "region";
     "ROIPLREG" := entry "Oil In Place Of The Regulator" "field" ]}.


(** ** The functions on concrete inputs *)

Example split1_ex : PyStr.split1 ":" "WOPR:OP_1:x" = ["WOPR"; "OP_1:x"].
Proof. reflexivity. Qed.

Example rstrip_ex : PyStr.rstrip "_" "R_PR__" = "R_PR".
Proof. reflexivity. Qed.

Example historical_ex1 : historical_vector "WOPR:OP_1" None true = Ok (Some "WOPRH:OP_1").
Proof. reflexivity. Qed.

(** ** Facts about the string methods *)

Module PyStrFacts.
Import PyStr.

Lemma app_empty_r s : s ++ EmptyString = s.
Proof. induction s; simpl; congruence. Qed.

Lemma app_assoc s1 s2 s3 : (s1 ++ s2) ++ s3 = s1 ++ s2 ++ s3.
Proof. induction s1; simpl; congruence. Qed.

Lemma length_app s1 s2 :
  String.length (s1 ++ s2) = String.length s1 + String.length s2.
Proof. induction s1; simpl; congruence. Qed.

Lemma take_drop n s : take n s ++ drop n s = s.
Proof.
  revert s; induction n as [|n IH]; intros [|a s]; simpl; try reflexivity.
  by rewrite IH.
Qed.

Lemma length_take n s : String.length (take n s) = n `min` String.length s.
Proof.
  revert s; induction n as [|n IH]; intros [|a s]; simpl; try reflexivity.
  by rewrite IH.
Qed.

Lemma length_drop n s : String.length (drop n s) = String.length s - n.
Proof.
  revert s; induction n as [|n IH]; intros [|a s]; simpl; try reflexivity.
  by rewrite IH.
Qed.

Lemma take_app_length p r : take (String.length p) (p ++ r) = p.
Proof. induction p; simpl; [by destruct r | congruence]. Qed.

Lemma drop_app_length p r : drop (String.length p) (p ++ r) = r.
Proof. induction p; simpl; [by destruct r | congruence]. Qed.

Lemma find_None c s : find c s = None ↔ contains c s = false.
Proof.
  induction s as [|a s IH]; simpl; [done|].
  destruct (Ascii.eqb a c); [done|].
  rewrite <- IH. destruct (find c s); simpl; split; congruence.
Qed.

Lemma find_Some c s i :
  find c s = Some i →
  contains c (take i s) = false ∧ s = take i s ++ String c (drop (S i) s).
Proof.
  revert i; induction s as [|a s IH]; simpl; intros i Hi; [done|].
  destruct (Ascii.eqb_spec a c) as [->|Hne].
  - inversion Hi; subst; simpl. split; [done|]. by destruct s.
  - destruct (find c s) as [j|]; simpl in Hi; [|done].
    inversion Hi; subst; simpl.
    destruct (IH j eq_refl) as [Hc Hs].
    rewrite (proj2 (Ascii.eqb_neq a c) Hne). split; [done|].
    f_equal. exact Hs.
Qed.

Lemma find_app c p r :
  contains c p = false → find c (p ++ String c r) = Some (String.length p).
Proof.
  induction p as [|a p IH]; simpl; intros Hc.
  - by rewrite Ascii.eqb_refl.
  - destruct (Ascii.eqb a c); [done|]. by rewrite IH.
Qed.

Lemma contains_app c s1 s2 :
  contains c (s1 ++ s2) = contains c s1 || contains c s2.
Proof. induction s1 as [|a s1 IH]; simpl; [done|]. by destruct (Ascii.eqb a c). Qed.

(** What [split1] returns, in both of its cases. *)
Lemma split1_without c s : contains c s = false → split1 c s = [s].
Proof. intros Hc. unfold split1. by rewrite (proj2 (find_None c s) Hc). Qed.

Lemma split1_with c p r :
  contains c p = false → split1 c (p ++ String c r) = [p; r].
Proof.
  intros Hc. unfold split1. rewrite (find_app c p r Hc).
  rewrite take_app_length.
  replace (S (String.length p)) with (String.length (p ++ String c EmptyString)).
  - replace (p ++ String c r) with ((p ++ String c EmptyString) ++ r).
    + by rewrite drop_app_length.
    + by rewrite app_assoc.
  - rewrite length_app. simpl. lia.
Qed.

Lemma split1_cases c s :
  (contains c s = false ∧ split1 c s = [s]) ∨
  (∃ p r, contains c s = true ∧ contains c p = false ∧
          s = p ++ String c r ∧ split1 c s = [p; r]).
Proof.
  destruct (find c s) as [i|] eqn:Hf.
  - right. destruct (find_Some c s i Hf) as [Hc Hs].
    exists (take i s), (drop (S i) s). split_and!; try done.
    + destruct (contains c s) eqn:E; [done|].
      apply find_None in E. congruence.
    + unfold split1. by rewrite Hf.
  - left. apply find_None in Hf. split; [done|]. by apply split1_without.
Qed.

Lemma split1_first c s :
  ∃ p rest, split1 c s = p :: rest ∧ before_first c s p.
Proof.
  destruct (split1_cases c s) as [[Hc ->]|(p & r & _ & Hp & Hs & ->)].
  - exists s, []. split; [done|]. split; [done|]. by left.
  - exists p, [r]. split; [done|]. split; [done|]. right. by exists r.
Qed.

Lemma before_first_unique c s p q :
  before_first c s p → before_first c s q → p = q.
Proof.
  intros [Hp Hps] [Hq Hqs].
  assert (Hsp : split1 c s = [p] ∨ ∃ r, split1 c s = [p; r]).
  { destruct Hps as [->|[r ->]]; [left; by apply split1_without|].
    right. exists r. by apply split1_with. }
  assert (Hsq : split1 c s = [q] ∨ ∃ r, split1 c s = [q; r]).
  { destruct Hqs as [->|[r ->]]; [left; by apply split1_without|].
    right. exists r. by apply split1_with. }
  destruct Hsp as [Hsp|[r Hsp]], Hsq as [Hsq|[r' Hsq]]; congruence.
Qed.

End PyStrFacts.

(** ** The historical vector guesser, step by step *)

Section historical_facts.
Import PyStr PyStrFacts.

#[local] Arguments join : simpl never.
#[local] Arguments startswith_any : simpl never.

Lemma endswith_snoc c p : endswith c (p ++ String c EmptyString) = true.
Proof.
  induction p as [|a p IH]; simpl; [apply Ascii.eqb_refl|].
  destruct (p ++ String c EmptyString) eqn:E; [by destruct p|done].
Qed.

Lemma drop_last_snoc c p : drop_last (p ++ String c EmptyString) = p.
Proof.
  induction p as [|a p IH]; simpl; [done|].
  destruct (p ++ String c EmptyString) eqn:E; [by destruct p|]. by rewrite IH.
Qed.

(** Every vector is a colon-free base followed by nothing or by a colon
    and a node. *)
Lemma vector_shape (vector : string) :
  ∃ base rest, vector = base ++ rest ∧ before_first ":" vector base ∧
    ((rest = EmptyString ∧ split1 ":" vector = [base]) ∨
     (∃ node, rest = String ":" node ∧ split1 ":" vector = [base; node])).
Proof.
  destruct (split1_cases ":" vector) as [[Hc Hs]|(p & r & _ & Hp & -> & Hs)].
  - exists vector, EmptyString. rewrite app_empty_r.
    split; [done|]. split; [split; [done|by left]|]. by left.
  - exists p, (String ":" r).
    split; [done|]. split; [split; [done|right; by exists r]|].
    right. by exists r.
Qed.

(** The parts of a base followed by an optional node, and their join. *)
Lemma split1_shape base rest :
  contains ":" base = false →
  rest = EmptyString ∨ (∃ node, rest = String ":" node) →
  ∃ tail, split1 ":" (base ++ rest) = base :: tail ∧
    ∀ first, join ":" (first :: tail) = first ++ rest.
Proof.
  intros Hc [->|[node ->]].
  - exists []. rewrite app_empty_r, split1_without by done.
    split; [done|]. intros first. simpl. by rewrite app_empty_r.
  - exists [node]. rewrite split1_with by done. split; [done|].
    intros first. reflexivity.
Qed.

(** Reverse mode on a vector of known shape: the naming heuristic. *)
Lemma historical_vector_reverse base rest smry_meta :
  contains ":" base = false →
  rest = EmptyString ∨ (∃ node, rest = String ":" node) →
  historical_vector (base ++ rest) smry_meta false =
    Ok (if looks_historical base then Some (drop_last base ++ rest) else None).
Proof.
  intros Hc Hrest. simp historical_vector.
  destruct (split1_shape base rest Hc Hrest) as (tail & -> & Hjoin).
  cbn. fold (looks_historical base).
  destruct (looks_historical base); [|done].
  by rewrite Hjoin.
Qed.

(** Forward mode on a vector of known shape. *)
Lemma historical_vector_forward base rest smry_meta :
  contains ":" base = false →
  rest = EmptyString ∨ (∃ node, rest = String ":" node) →
  historical_vector (base ++ rest) smry_meta true =
    Ok (if looks_historical (base ++ "H") then Some ((base ++ "H") ++ rest) else None).
Proof.
  intros Hc Hrest. simp historical_vector.
  destruct (split1_shape base rest Hc Hrest) as (tail & -> & Hjoin).
  cbn. rewrite Hjoin.
  rewrite historical_vector_reverse; [|by rewrite contains_app, Hc|done].
  cbn. by destruct (looks_historical (base ++ "H")).
Qed.

Lemma looks_historical_snoc base :
  looks_historical (base ++ "H") = startswith_any ["F"; "G"; "W"]%char base.
Proof.
  unfold looks_historical. rewrite endswith_snoc. simpl.
  by destruct base.
Qed.

End historical_facts.

(** ** Properties of the historical vector guesser *)

Section historical_properties.
Import PyStr PyStrFacts.

(** Line 97: whatever table is passed, the call behaves as with [None]. *)
Lemma historical_vector_forced_None vector smry_meta return_historical :
  historical_vector vector smry_meta return_historical =
  historical_vector vector None return_historical.
Proof. destruct return_historical; simp historical_vector; reflexivity. Qed.

(** Both modes return normally, on every vector. *)
Lemma historical_vector_total vector smry_meta return_historical :
  ∃ guess, historical_vector vector smry_meta return_historical = Ok guess.
Proof.
  destruct (vector_shape vector) as (base & rest & -> & [Hc _] & Hrest).
  assert (Hrest' : rest = EmptyString ∨ (∃ node, rest = String ":" node))
    by (destruct Hrest as [[-> _]|(node & -> & _)]; eauto).
  destruct return_historical.
  - rewrite historical_vector_forward by done. eauto.
  - rewrite historical_vector_reverse by done. eauto.
Qed.

(** C2. In forward mode the candidate is the vector with ["H"] appended
    to the part before the first colon, the rest of the vector kept; the
    candidate is returned exactly when reverse mode accepts it, which is
    when its base ends with ["H"] and starts with ["F"], ["G"] or ["W"];
    otherwise [None] is returned.  The three examples of the
    specification evaluate as stated. *)
Theorem historical_vector_forward_guess vector smry_meta :
  (∃ base rest,
     vector = base ++ rest ∧ before_first ":" vector base ∧
     let candidate := (base ++ "H") ++ rest in
     let confirmed :=
       endswith "H" (base ++ "H") &&
       startswith_any ["F"; "G"; "W"]%char (base ++ "H") in
     before_first ":" candidate (base ++ "H") ∧
     (confirmed = true ↔
      ∃ guess, historical_vector candidate smry_meta false = Ok (Some guess)) ∧
     historical_vector vector smry_meta true =
       Ok (if confirmed then Some candidate else None)) ∧
  historical_vector "WOPR" smry_meta true = Ok (Some "WOPRH") ∧
  historical_vector "WOPRH" smry_meta false = Ok (Some "WOPR") ∧
  historical_vector "BPR" smry_meta true = Ok None.
Proof.
  split.
  - destruct (vector_shape vector) as (base & rest & Hv & [Hc Hb] & Hrest).
    assert (Hrest' : rest = EmptyString ∨ (∃ node, rest = String ":" node))
      by (destruct Hrest as [[-> _]|(node & -> & _)]; eauto).
    assert (HcH : contains ":" (base ++ "H") = false)
      by (by rewrite contains_app, Hc).
    exists base, rest. split; [done|]. split; [done|].
    cbv zeta. fold (looks_historical (base ++ "H")).
    split; [|split].
    + split; [done|].
      destruct Hrest' as [->|[node ->]].
      * left. by rewrite app_empty_r.
      * right. by exists node.
    + rewrite historical_vector_reverse by done.
      destruct (looks_historical (base ++ "H")); split.
      * eauto.
      * done.
      * done.
      * intros [guess Hg]. discriminate Hg.
    + rewrite Hv at 1. by apply historical_vector_forward.
  - rewrite !(historical_vector_forced_None _ smry_meta). done.
Qed.

(** C4. The table argument never influences the result. *)
Theorem historical_vector_table_noninterference
    vector return_historical (smry_meta1 smry_meta2 : option (gmap string bool)) :
  historical_vector vector smry_meta1 return_historical =
  historical_vector vector smry_meta2 return_historical.
Proof.
  rewrite (historical_vector_forced_None _ smry_meta1).
  by rewrite (historical_vector_forced_None _ smry_meta2).
Qed.

(** C3, as the specification states it, fails: a vector flagged in the
    table is still rejected by the naming heuristic, and a vector
    missing from the table is still accepted by it. *)
Lemma historical_vector_table_lookup_counterexample :
  let flags : gmap string bool := {[ "BPRH:1" := true ]} in
  flags !! "BPRH:1" = Some true ∧
  historical_vector_table_spec "BPRH:1" flags = Some "BPR:1" ∧
  historical_vector "BPRH:1" (Some flags) false = Ok None ∧
  historical_vector "BPRH:1" (Some flags) false ≠
    Ok (historical_vector_table_spec "BPRH:1" flags) ∧
  (∅ : gmap string bool) !! "WOPRH:1" = None ∧
  historical_vector_table_spec "WOPRH:1" ∅ = None ∧
  historical_vector "WOPRH:1" (Some ∅) false = Ok (Some "WOPR:1") ∧
  historical_vector "WOPRH:1" (Some ∅) false ≠
    Ok (historical_vector_table_spec "WOPRH:1" ∅).
Proof. cbv zeta. split_and!; try reflexivity; by vm_compute. Qed.

(** C3, amended.  In reverse mode a supplied table is not consulted:
    the result is the base without its trailing ["H"], followed by the
    node, exactly when the base ends with ["H"] and starts with ["F"],
    ["G"] or ["W"], and [None] otherwise. *)
Theorem historical_vector_reverse_ignores_table
    vector (is_historical : gmap string bool) :
  ∃ base rest,
    vector = base ++ rest ∧ before_first ":" vector base ∧
    historical_vector vector (Some is_historical) false =
      Ok (if endswith "H" base && startswith_any ["F"; "G"; "W"]%char base
          then Some (drop_last base ++ rest) else None).
Proof.
  destruct (vector_shape vector) as (base & rest & Hv & [Hc Hb] & Hrest).
  assert (Hrest' : rest = EmptyString ∨ (∃ node, rest = String ":" node))
    by (destruct Hrest as [[-> _]|(node & -> & _)]; eauto).
  exists base, rest. split; [done|]. split; [done|].
  rewrite Hv at 1. by apply historical_vector_reverse.
Qed.

(** C10. A guess of forward mode is mapped back to the vector it came
    from by reverse mode. *)
Theorem historical_vector_round_trip vector smry_meta smry_meta' hist_vec :
  historical_vector vector smry_meta true = Ok (Some hist_vec) →
  historical_vector hist_vec smry_meta' false = Ok (Some vector).
Proof.
  destruct (vector_shape vector) as (base & rest & -> & [Hc _] & Hrest).
  assert (Hrest' : rest = EmptyString ∨ (∃ node, rest = String ":" node))
    by (destruct Hrest as [[-> _]|(node & -> & _)]; eauto).
  rewrite historical_vector_forward by done.
  destruct (looks_historical (base ++ "H")) eqn:Hlooks; [|done].
  intros [= <-].
  rewrite historical_vector_reverse; [|by rewrite contains_app, Hc|done].
  rewrite Hlooks. by rewrite (drop_last_snoc "H" base).
Qed.

Lemma historical_vector_round_trip_witness :
  historical_vector "WOPR:OP_1" None true = Ok (Some "WOPRH:OP_1") ∧
  historical_vector "WOPRH:OP_1" None false = Ok (Some "WOPR:OP_1").
Proof.
  split; [reflexivity|].
  apply (historical_vector_round_trip "WOPR:OP_1" None None "WOPRH:OP_1").
  reflexivity.
Defined.

End historical_properties.

(** ** Properties of the unit reformatter and of the base extractor *)

Section lookup_properties.
Import PyStr PyStrFacts.

(** C7. With a known unit set the mapped unit is returned, or the raw
    unit when the set does not map it; an unknown unit set raises
    [KeyError]. *)
Theorem simulation_unit_reformat_spec
    (UNITS : gmap string (gmap string string)) (ecl_unit unit_set : string) :
  (∀ units friendly,
     UNITS !! unit_set = Some units → units !! ecl_unit = Some friendly →
     simulation_unit_reformat UNITS ecl_unit unit_set = Ok friendly) ∧
  (∀ units,
     UNITS !! unit_set = Some units → units !! ecl_unit = None →
     simulation_unit_reformat UNITS ecl_unit unit_set = Ok ecl_unit) ∧
  (UNITS !! unit_set = None →
     simulation_unit_reformat UNITS ecl_unit unit_set = Raise (KeyError unit_set)).
Proof.
  unfold simulation_unit_reformat, getitem.
  split_and!.
  - intros units friendly -> Hu. simpl. by rewrite Hu.
  - intros units -> Hu. simpl. by rewrite Hu.
  - by intros ->.
Qed.

Lemma simulation_unit_reformat_spec_witness :
  simulation_unit_reformat metric_only "SM3/DAY" "METRIC" = Ok "Sm3/d" ∧
  simulation_unit_reformat metric_only "BARSA" "METRIC" = Ok "BARSA" ∧
  simulation_unit_reformat metric_only "SM3/DAY" "FIELD" = Raise (KeyError "FIELD").
Proof.
  split_and!.
  - apply (proj1 (simulation_unit_reformat_spec metric_only "SM3/DAY" "METRIC")
             {[ "SM3/DAY" := "Sm3/d" ]} "Sm3/d"); reflexivity.
  - apply (proj1 (proj2 (simulation_unit_reformat_spec metric_only "BARSA" "METRIC"))
             {[ "SM3/DAY" := "Sm3/d" ]}); reflexivity.
  - apply (proj2 (proj2 (simulation_unit_reformat_spec metric_only "SM3/DAY" "FIELD")));
      reflexivity.
Defined.

(** C8. The base is the part before the first colon, cut again before
    its first underscore; the call never raises, the two examples of the
    docstring hold and a vector without colon and underscore is its own
    base. *)
Theorem simulation_vector_base_spec (vector : string) :
  (∃ before_colon base,
     before_first ":" vector before_colon ∧
     before_first "_" before_colon base ∧
     simulation_vector_base vector = Ok base) ∧
  simulation_vector_base "WOPR:OP_1" = Ok "WOPR" ∧
  simulation_vector_base "ROIP_REG:1" = Ok "ROIP" ∧
  (contains ":" vector = false → contains "_" vector = false →
   simulation_vector_base vector = Ok vector).
Proof.
  unfold simulation_vector_base. split_and!; try reflexivity.
  - destruct (split1_first ":" vector) as (p & rest & -> & Hp).
    destruct (split1_first "_" p) as (b & rest' & Hb & Hpb).
    exists p, b. split_and!; try done. simpl. by rewrite Hb.
  - intros Hc Hu. rewrite (split1_without ":") by done. simpl.
    by rewrite (split1_without "_").
Qed.

Lemma simulation_vector_base_spec_witness :
  contains ":" "NOQUALIFIER" = false ∧ contains "_" "NOQUALIFIER" = false ∧
  simulation_vector_base "NOQUALIFIER" = Ok "NOQUALIFIER".
Proof.
  split; [reflexivity|]. split; [reflexivity|].
  apply (proj2 (proj2 (proj2 (simulation_vector_base_spec "NOQUALIFIER"))));
    reflexivity.
Defined.

End lookup_properties.

(** ** Properties of the vector description builder *)

Section description_properties.
Import PyStr PyStrFacts.

Variable TERMINOLOGY : gmap string (gmap string string).

Lemma rstrip_spec c s :
  ∃ pad, s = rstrip c s ++ pad ∧ only c pad = true ∧
         endswith c (rstrip c s) = false.
Proof.
  induction s as [|a s (pad & Hs & Hpad & Hend)]; [by exists EmptyString|].
  simpl. destruct (rstrip c s) as [|b r] eqn:Hr.
  - simpl in Hs. subst pad. destruct (Ascii.eqb a c) eqn:Hac.
    + exists (String a s). simpl. by rewrite Hac, Hpad.
    + exists s. simpl. by rewrite Hac.
  - exists pad. split_and!; [|done|done]. simpl. f_equal. exact Hs.
Qed.

Lemma replace_length old new s :
  String.length (replace old new s) = String.length s.
Proof. induction s; simpl; congruence. Qed.

Lemma replace_get old new s i :
  String.get i (replace old new s) =
  (λ a, if Ascii.eqb a old then new else a) <$> String.get i s.
Proof.
  revert i; induction s as [|a s IH]; intros i; [done|].
  destruct i; simpl; [done|apply IH].
Qed.

(** Line 40 on a vector without colon, and on one with a colon. *)
Lemma split_node_without vector :
  contains ":" vector = false → split_node vector = Ok (vector, None).
Proof. intros Hc. unfold split_node. by rewrite Hc. Qed.

Lemma split_node_with vector_name node :
  contains ":" vector_name = false →
  split_node (vector_name ++ String ":" node) = Ok (vector_name, Some node).
Proof.
  intros Hc. unfold split_node.
  by rewrite contains_app, Hc, split1_with by done.
Qed.

Lemma split_node_before_first vector vector_name :
  before_first ":" vector vector_name →
  ∃ node, split_node vector = Ok (vector_name, node) ∧
    ((node = None ∧ vector = vector_name) ∨
     (∃ n, node = Some n ∧ vector = vector_name ++ String ":" n)).
Proof.
  intros [Hc [->|[n ->]]].
  - exists None. split; [by apply split_node_without|]. by left.
  - exists (Some n). split; [by apply split_node_with|]. right. by exists n.
Qed.

(** Lines 41 to 55, case by case. *)
Lemma region_form_other vector_name :
  String.length vector_name ≠ 8 →
  region_form TERMINOLOGY vector_name = Ok (vector_name, None).
Proof.
  intros Hlen. unfold region_form.
  by rewrite (proj2 (Nat.eqb_neq _ _) Hlen).
Qed.

Lemma region_form_region vector_name :
  String.length vector_name = 8 →
  region_entry TERMINOLOGY (rstrip "_" (take 5 vector_name)) →
  region_form TERMINOLOGY vector_name =
    Ok (rstrip "_" (take 5 vector_name), Some (drop 5 vector_name)).
Proof.
  intros Hlen (metadata & Hm & Ht). unfold region_form, getitem.
  rewrite Hlen. cbv zeta. rewrite Hm. simpl. by rewrite Ht.
Qed.

Lemma region_form_not_region vector_name :
  ¬ region_entry TERMINOLOGY (rstrip "_" (take 5 vector_name)) →
  region_form TERMINOLOGY vector_name = Ok (vector_name, None).
Proof.
  intros Hno. unfold region_form, getitem.
  destruct (String.length vector_name =? 8)%nat; [|done]. cbv zeta.
  destruct (TERMINOLOGY !! rstrip "_" (take 5 vector_name))
    as [metadata|] eqn:Hm; simpl; [|done].
  destruct (metadata !! "type") as [type|] eqn:Ht; simpl; [|done].
  destruct (String.eqb_spec type "region") as [->|Hne]; [|done].
  destruct Hno. by exists metadata.
Qed.

Lemma region_entry_dec name : {region_entry TERMINOLOGY name} + {¬ region_entry TERMINOLOGY name}.
Proof.
  unfold region_entry.
  destruct (TERMINOLOGY !! name) as [metadata|] eqn:Hm.
  - destruct (decide (metadata !! "type" = Some "region")) as [Ht|Ht].
    + left. by exists metadata.
    + right. intros (m & [= <-] & Hm'). done.
  - right. by intros (m & [=] & _).
Qed.

Lemma region_form_total vector_name :
  ∃ resolved fip, region_form TERMINOLOGY vector_name = Ok (resolved, fip).
Proof.
  destruct (region_entry_dec (rstrip "_" (take 5 vector_name))) as [Hr|Hr].
  - destruct (decide (String.length vector_name = 8)) as [Hlen|Hlen].
    + rewrite region_form_region by done. eauto.
    + rewrite region_form_other by done. eauto.
  - rewrite region_form_not_region by done. eauto.
Qed.

Lemma only_rstrip c pad : only c pad = true → rstrip c pad = EmptyString.
Proof.
  induction pad as [|a pad IH]; simpl; [done|].
  intros [Ha Hpad]%andb_prop. by rewrite IH, Ha.
Qed.

Lemma rstrip_unique c base pad :
  only c pad = true → endswith c base = false → rstrip c (base ++ pad) = base.
Proof.
  intros Hpad. induction base as [|a base IH]; simpl.
  - intros _. by apply only_rstrip.
  - destruct base as [|b base].
    + intros Ha. simpl. by rewrite only_rstrip, Ha.
    + intros Hend. by rewrite IH.
Qed.

(** The two slices of an eight-character name given as prefix and rest. *)
Lemma slices_of_form prefix fip :
  String.length prefix = 5 →
  take 5 (prefix ++ fip) = prefix ∧ drop 5 (prefix ++ fip) = fip.
Proof.
  intros <-. split; [apply take_app_length|apply drop_app_length].
Qed.

Lemma describe_total vector_name fip node :
  well_formed TERMINOLOGY →
  ∃ description warnings,
    describe TERMINOLOGY vector_name fip node = Ok (description, warnings).
Proof.
  intros Hwf. unfold describe.
  destruct (TERMINOLOGY !! vector_name) as [metadata|] eqn:Hm; [|eauto].
  destruct (map_Forall_lookup_1 _ _ _ _ Hwf Hm) as [[d Hd] [t Ht]].
  unfold getitem. rewrite Hd. simpl.
  destruct node as [node|]; [|eauto].
  destruct fip as [fip|]; rewrite Ht; simpl; eauto.
Qed.

(** C1. Let [vector_name] be the part of the vector before its first
    colon.  When it has eight characters, written as a base that does
    not end with an underscore, a padding of underscores filling it up
    to five characters and a three-character array name, the base is
    looked up: if it is an entry of type ["region"], the base becomes
    the vector name and the array name is kept as [fip]; otherwise the
    eight-character name is kept and [fip] is [None].  Such a way of
    writing an eight-character name always exists.  When the name does
    not have eight characters, it is kept and [fip] is [None].  The
    description is the one built from the name and [fip] so obtained. *)
Theorem region_vector_form vector vector_name :
  before_first ":" vector vector_name →
  (∀ base pad fip,
     vector_name = (base ++ pad) ++ fip →
     String.length (base ++ pad) = 5 → String.length fip = 3 →
     only "_" pad = true → endswith "_" base = false →
     (region_entry TERMINOLOGY base →
      region_form TERMINOLOGY vector_name = Ok (base, Some fip)) ∧
     (¬ region_entry TERMINOLOGY base →
      region_form TERMINOLOGY vector_name = Ok (vector_name, None))) ∧
  (String.length vector_name = 8 →
   ∃ base pad fip,
     vector_name = (base ++ pad) ++ fip ∧
     String.length (base ++ pad) = 5 ∧ String.length fip = 3 ∧
     only "_" pad = true ∧ endswith "_" base = false) ∧
  (String.length vector_name ≠ 8 →
   region_form TERMINOLOGY vector_name = Ok (vector_name, None)) ∧
  (∃ node resolved fip,
     split_node vector = Ok (vector_name, node) ∧
     region_form TERMINOLOGY vector_name = Ok (resolved, fip) ∧
     simulation_vector_description TERMINOLOGY vector =
       describe TERMINOLOGY resolved fip node).
Proof.
  intros Hbefore. split_and!.
  - intros base pad fip Hname Hprefix Hfip Hpad Hbase.
    destruct (slices_of_form (base ++ pad) fip Hprefix) as [Htake Hdrop].
    assert (Hlen : String.length vector_name = 8)
      by (rewrite Hname, length_app, Hprefix, Hfip; done).
    assert (Hstrip : rstrip "_" (take 5 vector_name) = base)
      by (rewrite Hname, Htake; by apply rstrip_unique).
    split; intros Hentry.
    + rewrite region_form_region; rewrite ?Hstrip; try done.
      by rewrite Hname, Hdrop.
    + apply region_form_not_region. by rewrite Hstrip.
  - intros Hlen.
    destruct (rstrip_spec "_" (take 5 vector_name)) as (pad & Htake & Hpad & Hend).
    exists (rstrip "_" (take 5 vector_name)), pad, (drop 5 vector_name).
    rewrite <- Htake, take_drop, length_take, length_drop, Hlen. done.
  - apply region_form_other.
  - destruct (split_node_before_first vector vector_name Hbefore)
      as (node & Hsplit & _).
    destruct (region_form_total vector_name) as (resolved & fip & Hform).
    exists node, resolved, fip. split_and!; [done|done|].
    unfold simulation_vector_description. rewrite Hsplit. simpl.
    by rewrite Hform.
Qed.

(** C6. A vector with a node whose resolved name is an entry of the
    table is described by the entry's description followed by a comma,
    the type with every underscore turned into a space, the array name
    if there is one, and the node. *)
Theorem description_with_node
    vector vector_name node resolved fip metadata description type :
  contains ":" vector_name = false →
  vector = vector_name ++ String ":" node →
  region_form TERMINOLOGY vector_name = Ok (resolved, fip) →
  TERMINOLOGY !! resolved = Some metadata →
  metadata !! "description" = Some description →
  metadata !! "type" = Some type →
  ∃ spaced,
    String.length spaced = String.length type ∧
    (∀ i, String.get i spaced =
          (λ a, if Ascii.eqb a "_" then " "%char else a) <$> String.get i type) ∧
    simulation_vector_description TERMINOLOGY vector =
      Ok (match fip with
          | Some fip => description ++ ", " ++ spaced ++ " " ++ fip ++ " " ++ node
          | None => description ++ ", " ++ spaced ++ " " ++ node
          end, []).
Proof.
  intros Hc -> Hform Hm Hd Ht.
  exists (replace "_" " " type).
  split; [apply replace_length|]. split; [intros i; apply replace_get|].
  unfold simulation_vector_description.
  rewrite split_node_with by done. simpl. rewrite Hform. simpl.
  unfold describe, getitem. rewrite Hm, Hd. simpl.
  destruct fip; by rewrite Ht.
Qed.

(** C5, amended.  A key of the table without colon that is not taken
    for a region vector (it does not have eight characters, or its
    first five characters without trailing underscores are not an entry
    of type ["region"]) is described by its own description, with
    nothing appended and no warning. *)
Theorem description_of_known_name vector metadata description :
  TERMINOLOGY !! vector = Some metadata →
  metadata !! "description" = Some description →
  contains ":" vector = false →
  (String.length vector = 8 → ¬ region_entry TERMINOLOGY (rstrip "_" (take 5 vector))) →
  simulation_vector_description TERMINOLOGY vector = Ok (description, []).
Proof.
  intros Hm Hd Hc Hform.
  unfold simulation_vector_description.
  rewrite split_node_without by done. simpl.
  assert (region_form TERMINOLOGY vector = Ok (vector, None)) as ->.
  { destruct (decide (String.length vector = 8)) as [Hlen|Hlen].
    - apply region_form_not_region. by apply Hform.
    - by apply region_form_other. }
  simpl. unfold describe, getitem. by rewrite Hm, Hd.
Qed.

(** C9. On a well-formed table the description builder returns a
    description for every vector, and the historical guesser returns a
    vector or [None] for every vector, table and mode; neither raises. *)
Theorem never_raises vector :
  well_formed TERMINOLOGY →
  (∃ description warnings,
     simulation_vector_description TERMINOLOGY vector = Ok (description, warnings)) ∧
  (∀ smry_meta return_historical,
     ∃ guess, historical_vector vector smry_meta return_historical = Ok guess).
Proof.
  intros Hwf. split; [|intros; apply historical_vector_total].
  destruct (split1_first ":" vector) as (vector_name & rest & _ & Hbefore).
  destruct (split_node_before_first vector vector_name Hbefore)
    as (node & Hsplit & _).
  destruct (region_form_total vector_name) as (resolved & fip & Hform).
  unfold simulation_vector_description. rewrite Hsplit. simpl.
  rewrite Hform. simpl. by apply describe_total.
Qed.

End description_properties.

(** ** The theorems at work on a small table *)

Section examples.
Import PyStr PyStrFacts.

Example description_region :
  simulation_vector_description example_terminology "ROIP_REG:1" =
  Ok ("Oil In Place, region REG 1", []).
Proof. by vm_compute. Qed.

Example description_well :
  simulation_vector_description example_terminology "WOPR:OP_1" =
  Ok ("Oil Production Rate, well OP_1", []).
Proof. by vm_compute. Qed.

Example description_eight_not_region :
  simulation_vector_description example_terminology "WOPR_REG:1" =
  Ok ("WOPR_REG", [missing_description_warning "WOPR_REG"]).
Proof. by vm_compute. Qed.

Example description_segment :
  simulation_vector_description example_terminology "SOFR:OP_1:3" =
  Ok ("Segment Oil Flow Rate, well segment OP_1:3", []).
Proof. by vm_compute. Qed.

Lemma example_well_formed : well_formed example_terminology.
Proof. apply (bool_decide_unpack _). by vm_compute. Qed.

Lemma region_vector_form_witness :
  before_first ":" "ROIP_REG:1" "ROIP_REG" ∧
  region_entry example_terminology "ROIP" ∧
  region_form example_terminology "ROIP_REG" = Ok ("ROIP", Some "REG").
Proof.
  assert (Hbefore : before_first ":" "ROIP_REG:1" "ROIP_REG")
    by (split; [reflexivity|right; by exists "1"]).
  assert (Hentry : region_entry example_terminology "ROIP")
    by (exists (entry "Oil In Place" "region"); split; by vm_compute).
  split; [exact Hbefore|]. split; [exact Hentry|].
  apply (proj1 (proj1 (region_vector_form example_terminology
                         "ROIP_REG:1" "ROIP_REG" Hbefore)
                 "ROIP" "_" "REG" eq_refl eq_refl eq_refl eq_refl eq_refl)).
  exact Hentry.
Defined.

Lemma description_with_node_witness :
  contains ":" "SOFR" = false ∧
  region_form example_terminology "SOFR" = Ok ("SOFR", None) ∧
  example_terminology !! "SOFR" = Some (entry "Segment Oil Flow Rate" "well_segment") ∧
  ∃ spaced,
    String.length spaced = String.length "well_segment" ∧
    (∀ i, String.get i spaced =
          (λ a, if Ascii.eqb a "_" then " "%char else a) <$>
            String.get i "well_segment") ∧
    simulation_vector_description example_terminology "SOFR:OP_1:3" =
      Ok ("Segment Oil Flow Rate" ++ ", " ++ spaced ++ " " ++ "OP_1:3", []).
Proof.
  split; [reflexivity|]. split; [reflexivity|]. split; [by vm_compute|].
  apply (description_with_node example_terminology
           "SOFR:OP_1:3" "SOFR" "OP_1:3" "SOFR" None
           (entry "Segment Oil Flow Rate" "well_segment")
           "Segment Oil Flow Rate" "well_segment");
    by vm_compute.
Defined.

(** C5, as the specification states it, fails: an eight-character key
    whose first five characters name a region entry is described by the
    region entry, not by its own. *)
Lemma description_of_key_counterexample :
  shadowing_terminology !! "ROIPLREG" =
    Some (entry "Oil In Place Of The Regulator" "field") ∧
  entry "Oil In Place Of The Regulator" "field" !! "description" =
    Some "Oil In Place Of The Regulator" ∧
  simulation_vector_description shadowing_terminology "ROIPLREG" =
    Ok ("Liquid Phase Oil In Place", []) ∧
  simulation_vector_description shadowing_terminology "ROIPLREG" ≠
    Ok ("Oil In Place Of The Regulator", []).
Proof. split_and!; by vm_compute. Qed.

Lemma description_of_known_name_witness :
  example_terminology !! "WOPR" = Some (entry "Oil Production Rate" "well") ∧
  contains ":" "WOPR" = false ∧
  simulation_vector_description example_terminology "WOPR" =
    Ok ("Oil Production Rate", []).
Proof.
  split; [by vm_compute|]. split; [reflexivity|].
  apply (description_of_known_name example_terminology "WOPR"
           (entry "Oil Production Rate" "well") "Oil Production Rate").
  - by vm_compute.
  - by vm_compute.
  - reflexivity.
  - intros Hlen. discriminate Hlen.
Defined.

Lemma never_raises_witness :
  well_formed example_terminology ∧
  (∃ description warnings,
     simulation_vector_description example_terminology ":::_:" =
       Ok (description, warnings)) ∧
  (∀ smry_meta return_historical,
     ∃ guess, historical_vector ":::_:" smry_meta return_historical = Ok guess).
Proof.
  split; [exact example_well_formed|].
  apply (never_raises example_terminology ":::_:" example_well_formed).
Defined.

End examples.

(** ** Further properties read off the code *)

Section further_properties.
Import PyStr PyStrFacts.

Variable TERMINOLOGY : gmap string (gmap string string).

(** The description builder as the sequence of its three phases. *)
Lemma description_by_phases vector vector_name node resolved fip :
  split_node vector = Ok (vector_name, node) →
  region_form TERMINOLOGY vector_name = Ok (resolved, fip) →
  simulation_vector_description TERMINOLOGY vector =
    describe TERMINOLOGY resolved fip node.
Proof.
  intros Hsplit Hform. unfold simulation_vector_description.
  rewrite Hsplit. simpl. by rewrite Hform.
Qed.

(** The three phases of the description builder on any vector. *)
Lemma description_phases vector :
  ∃ vector_name node resolved fip,
    before_first ":" vector vector_name ∧
    ((node = None ∧ vector = vector_name) ∨
     (∃ n, node = Some n ∧ vector = vector_name ++ String ":" n)) ∧
    ((resolved = vector_name ∧ fip = None) ∨
     (String.length vector_name = 8 ∧ region_entry TERMINOLOGY resolved ∧
      resolved = rstrip "_" (take 5 vector_name) ∧
      fip = Some (drop 5 vector_name))) ∧
    simulation_vector_description TERMINOLOGY vector =
      describe TERMINOLOGY resolved fip node.
Proof.
  destruct (split1_first ":" vector) as (vector_name & rest & _ & Hbefore).
  destruct (split_node_before_first vector vector_name Hbefore)
    as (node & Hsplit & Hnode).
  unfold simulation_vector_description. rewrite Hsplit. simpl.
  destruct (region_entry_dec TERMINOLOGY (rstrip "_" (take 5 vector_name)))
    as [Hr|Hr]; [destruct (decide (String.length vector_name = 8)) as [Hlen|Hlen]|].
  - exists vector_name, node, (rstrip "_" (take 5 vector_name)),
      (Some (drop 5 vector_name)).
    rewrite region_form_region by done. simpl.
    split; [done|]. split; [done|]. split; [|done]. right. done.
  - exists vector_name, node, vector_name, None.
    rewrite region_form_other by done. simpl.
    split; [done|]. split; [done|]. split; [|done]. by left.
  - exists vector_name, node, vector_name, None.
    rewrite region_form_not_region by done. simpl.
    split; [done|]. split; [done|]. split; [|done]. by left.
Qed.

(** X1. When a warning is issued, the description returned is the part
    of the vector before its first colon (the node is not part of it), this
    name is not a key of the table, and the single warning names it. *)
Theorem warning_only_on_unknown_name vector description warnings :
  simulation_vector_description TERMINOLOGY vector = Ok (description, warnings) →
  warnings ≠ [] →
  before_first ":" vector description ∧
  TERMINOLOGY !! description = None ∧
  warnings = [missing_description_warning description].
Proof.
  destruct (description_phases vector)
    as (vector_name & node & resolved & fip & Hbefore & _ & Hform & ->).
  unfold describe, getitem.
  destruct (TERMINOLOGY !! resolved) as [metadata|] eqn:Hm.
  - destruct (metadata !! "description"); simpl; [|done].
    destruct node; [|by intros [= <- <-]].
    destruct fip; destruct (metadata !! "type"); simpl;
      try done; by intros [= <- <-].
  - intros [= <- <-] _.
    destruct Hform as [[-> _]|(_ & (m & Hm' & _) & _)]; [done|congruence].
Qed.

(** X2. A vector whose name before the colon is not a key of the table and
    is not taken for a region vector is described by that name alone, the
    node dropped, with one warning. *)
Theorem unknown_name_falls_back vector vector_name :
  before_first ":" vector vector_name →
  TERMINOLOGY !! vector_name = None →
  (String.length vector_name = 8 →
   ¬ region_entry TERMINOLOGY (rstrip "_" (take 5 vector_name))) →
  simulation_vector_description TERMINOLOGY vector =
    Ok (vector_name, [missing_description_warning vector_name]).
Proof.
  intros Hbefore Hm Hform.
  destruct (split_node_before_first vector vector_name Hbefore)
    as (node & Hsplit & _).
  unfold simulation_vector_description. rewrite Hsplit. simpl.
  assert (region_form TERMINOLOGY vector_name = Ok (vector_name, None)) as ->.
  { destruct (decide (String.length vector_name = 8)) as [Hlen|Hlen].
    - apply region_form_not_region. by apply Hform.
    - by apply region_form_other. }
  simpl. unfold describe. by rewrite Hm.
Qed.



(** X5. An eight-character vector without node that has the region form
    is described by the description of the region entry alone: the array
    name in its last three characters leaves no trace. *)
Theorem region_vector_without_node vector metadata description :
  contains ":" vector = false →
  String.length vector = 8 →
  TERMINOLOGY !! rstrip "_" (take 5 vector) = Some metadata →
  metadata !! "type" = Some "region" →
  metadata !! "description" = Some description →
  simulation_vector_description TERMINOLOGY vector = Ok (description, []).
Proof.
  intros Hc Hlen Hm Ht Hd.
  rewrite (description_by_phases vector vector None
             (rstrip "_" (take 5 vector)) (Some (drop 5 vector))).
  - unfold describe, getitem. by rewrite Hm, Hd.
  - by apply split_node_without.
  - apply region_form_region; [done|by exists metadata].
Qed.

(** X6. The base of a vector holds neither colon nor underscore, and the
    base extractor leaves it as it is: extracting twice is extracting
    once. *)
Theorem simulation_vector_base_idempotent (vector : string) :
  ∃ base,
    simulation_vector_base vector = Ok base ∧
    contains ":" base = false ∧ contains "_" base = false ∧
    simulation_vector_base base = Ok base.
Proof.
  unfold simulation_vector_base.
  destruct (split1_first ":" vector) as (p & rest & -> & [Hp _]).
  destruct (split1_first "_" p) as (b & rest' & Hb & [Hu Hpb]).
  assert (Hcb : contains ":" b = false).
  { destruct Hpb as [->|[r ->]]; [done|].
    rewrite contains_app in Hp. by apply orb_false_elim in Hp as [? _]. }
  exists b. simpl. rewrite Hb. simpl.
  split; [done|]. split; [done|]. split; [done|].
  rewrite (split1_without ":") by done. simpl.
  by rewrite (split1_without "_").
Qed.

(** X7. Forward mode looks at nothing but the first character of the
    vector: it returns a guess exactly when the vector starts with ["F"],
    ["G"] or ["W"], whether or not the vector is historical already. *)
Theorem historical_vector_forward_first_character vector smry_meta :
  (startswith_any ["F"; "G"; "W"]%char vector = true →
   ∃ hist_vec, historical_vector vector smry_meta true = Ok (Some hist_vec) ∧
               String.length hist_vec = S (String.length vector)) ∧
  (startswith_any ["F"; "G"; "W"]%char vector = false →
   historical_vector vector smry_meta true = Ok None).
Proof.
  destruct (vector_shape vector) as (base & rest & -> & [Hc _] & Hrest).
  assert (Hrest' : rest = EmptyString ∨ (∃ node, rest = String ":" node))
    by (destruct Hrest as [[-> _]|(node & -> & _)]; eauto).
  rewrite historical_vector_forward by done.
  rewrite looks_historical_snoc.
  assert (Hfirst : startswith_any ["F"; "G"; "W"]%char (base ++ rest) =
                   startswith_any ["F"; "G"; "W"]%char base).
  { destruct base as [|a base]; [|done].
    destruct Hrest' as [->|[node ->]]; done. }
  rewrite Hfirst. split; intros ->; [|done].
  eexists. split; [done|]. rewrite !length_app. simpl. lia.
Qed.

(** X8. A vector that reverse mode maps to a vector is the forward guess
    of that vector: reverse mode followed by forward mode gives the
    vector back. *)
Theorem historical_vector_reverse_round_trip vector smry_meta smry_meta' plain :
  historical_vector vector smry_meta false = Ok (Some plain) →
  historical_vector plain smry_meta' true = Ok (Some vector).
Proof.
  destruct (vector_shape vector) as (base & rest & -> & [Hc _] & Hrest).
  assert (Hrest' : rest = EmptyString ∨ (∃ node, rest = String ":" node))
    by (destruct Hrest as [[-> _]|(node & -> & _)]; eauto).
  rewrite historical_vector_reverse by done.
  destruct (looks_historical base) eqn:Hlooks; [|done].
  intros [= <-].
  assert (Hbase : drop_last base ++ "H" = base).
  { apply andb_prop in Hlooks as [Hend _]. clear -Hend.
    induction base as [|a base IH]; [done|].
    destruct base as [|b base].
    - simpl in *. apply Ascii.eqb_eq in Hend. by subst.
    - change (String a (drop_last (String b base) ++ "H") = String a (String b base)).
      f_equal. by apply IH. }
  assert (Hc' : contains ":" (drop_last base) = false).
  { rewrite <- Hbase, contains_app in Hc. by apply orb_false_elim in Hc as [? _]. }
  rewrite historical_vector_forward by done.
  by rewrite Hbase, Hlooks.
Qed.

End further_properties.

Section further_witnesses.
Import PyStr PyStrFacts.

Lemma warning_only_on_unknown_name_witness :
  simulation_vector_description example_terminology "WOPR_REG:1" =
    Ok ("WOPR_REG", [missing_description_warning "WOPR_REG"]) ∧
  before_first ":" "WOPR_REG:1" "WOPR_REG" ∧
  example_terminology !! "WOPR_REG" = None.
Proof.
  split; [by vm_compute|].
  destruct (warning_only_on_unknown_name example_terminology "WOPR_REG:1"
              "WOPR_REG" [missing_description_warning "WOPR_REG"])
    as (Hbefore & Hmissing & _); [by vm_compute|done|].
  by split.
Defined.

Lemma unknown_name_falls_back_witness :
  before_first ":" "BPR:1,1,1" "BPR" ∧
  example_terminology !! "BPR" = None ∧
  simulation_vector_description example_terminology "BPR:1,1,1" =
    Ok ("BPR", [missing_description_warning "BPR"]).
Proof.
  assert (Hbefore : before_first ":" "BPR:1,1,1" "BPR")
    by (split; [reflexivity|right; by exists "1,1,1"]).
  split; [exact Hbefore|]. split; [by vm_compute|].
  apply (unknown_name_falls_back example_terminology "BPR:1,1,1" "BPR" Hbefore).
  - by vm_compute.
  - intros Hlen. discriminate Hlen.
Defined.



Lemma region_vector_without_node_witness :
  String.length "ROIP_REG" = 8 ∧
  example_terminology !! rstrip "_" (take 5 "ROIP_REG") =
    Some (entry "Oil In Place" "region") ∧
  simulation_vector_description example_terminology "ROIP_REG" =
    Ok ("Oil In Place", []).
Proof.
  split; [reflexivity|]. split; [by vm_compute|].
  apply (region_vector_without_node example_terminology "ROIP_REG"
           (entry "Oil In Place" "region") "Oil In Place"); by vm_compute.
Defined.

Lemma historical_vector_forward_first_character_witness :
  (∃ hist_vec, historical_vector "WOPRH:OP_1" None true = Ok (Some hist_vec) ∧
               String.length hist_vec = S (String.length "WOPRH:OP_1")) ∧
  historical_vector "BPR:1,1,1" None true = Ok None.
Proof.
  split.
  - apply (proj1 (historical_vector_forward_first_character "WOPRH:OP_1" None)).
    reflexivity.
  - apply (proj2 (historical_vector_forward_first_character "BPR:1,1,1" None)).
    reflexivity.
Defined.

Lemma historical_vector_reverse_round_trip_witness :
  historical_vector "WOPRH:OP_1" None false = Ok (Some "WOPR:OP_1") ∧
  historical_vector "WOPR:OP_1" None true = Ok (Some "WOPRH:OP_1").
Proof.
  split; [reflexivity|].
  apply (historical_vector_reverse_round_trip "WOPRH:OP_1" None None "WOPR:OP_1").
  reflexivity.
Defined.

End further_witnesses.
